(** * gg: the drag-and-drop mutation resolver ([BinaryMutator])

    A shallow embedding of [BinaryMutator.canDrag], [BinaryMutator.canDrop]
    and [BinaryMutator.doDrop], followed by the properties of the
    eligibility table and of the request dispatcher.

    JavaScript objects have an identity that is separate from their
    contents, and the mutator compares operands and headers with [==],
    that is by identity.  Operands and revision headers are therefore kept
    in a store and named by references; [==] on them is equality of
    references.  Strings are compared by contents.

    The repository holds two revisions of the class.  The one embedded
    here is the one that dispatches a request for every pair of the
    eligibility table; the other still logs most pairs as unimplemented.
    That earlier revision follows in [Earlier], after the handlers of the
    revision object, and is compared with the later one at the end. *)

From Stdlib Require Import String List Bool Arith ZArith Lia.
Import ListNotations.

Local Open Scope string_scope.
Local Open Scope list_scope.
Local Open Scope nat_scope.

(* ------------------------------------------------------------------ *)
(** ** Messages *)

(** Modelled from the spec: the generated declaration [messages/ChangeId]
    is missing.  A change identity is "a short hex with a distinguishing
    prefix"; the application shell builds one from the fields [hex],
    [prefix] and [rest]. *)
Module ChangeId.
Record t : Type := mk { hex : string; prefix : string; rest : string }.
End ChangeId.

(** Modelled from the spec: the generated declaration [messages/CommitId]
    is missing.  A commit identity is a content hash; the sources read its
    [hex] and [prefix]. *)
Module CommitId.
Record t : Type := mk { hex : string; prefix : string; rest : string }.
End CommitId.

(** Modelled from the spec: the generated declaration [messages/RevId] is
    missing.  It is the identity pair of a revision. *)
Module RevId.
Record t : Type := mk { change : ChangeId.t; commit : CommitId.t }.
End RevId.

(** Modelled from the spec: the generated declaration [messages/RefName]
    is missing.  A branch reference is a branch name plus a variant,
    local or remote, with sync and tracking flags. *)
Module RefName.
Inductive kind : Type := LocalBranch | RemoteBranch.
Record t : Type :=
  mk { type : kind; branch_name : string; is_synced : bool; is_tracked : bool }.

Definition kind_eqb (a b : kind) : bool :=
  match a, b with
  | LocalBranch, LocalBranch | RemoteBranch, RemoteBranch => true
  | _, _ => false
  end.
End RefName.

(** Modelled from the spec: the generated declaration [messages/TreePath]
    is missing.  It is a path relative to the repository root. *)
Module TreePath.
Record t : Type := mk { relative_path : string }.
End TreePath.

(** Modelled from the spec: the generated declaration [messages/RevHeader]
    is missing.  It is the snapshot of a revision: identity pair, ordered
    parent commit identities, immutability, working-copy and conflict
    flags, description lines, author and the branches pointing at it. *)
Module RevHeader.
Record t : Type :=
  mk { id : RevId.t;
       parent_ids : list CommitId.t;
       is_immutable : bool;
       is_working_copy : bool;
       has_conflict : bool;
       description : list string;
       author : string;
       branches : list RefName.t }.
End RevHeader.

(* ------------------------------------------------------------------ *)
(** ** The object store *)

(** The identity of an object. *)
Definition ref : Type := nat.

(** [Operand], as generated in [messages/Operand]: a tagged union.  The
    [header] and [child] fields hold references to header objects. *)
Inductive Operand : Type :=
| Repository
| Revision (header : ref)
| Merge (header : ref)
| Parent (header child : ref)
| Change (header : ref) (path : TreePath.t)
| Branch (header : ref) (name : RefName.t).

(** The objects a reference denotes.  A JavaScript reference always
    denotes a live object, so both maps are total. *)
Record Store : Type :=
  { operand_at : ref -> Operand;
    header_at : ref -> RevHeader.t }.

Section Accessors.
Variable s : Store.

(** [x.id], [x.id.change.hex], [x.id.commit.hex], [x.parent_ids] and
    [x.is_immutable] for the header object [x]. *)
Definition id (x : ref) : RevId.t := RevHeader.id (header_at s x).
Definition change (x : ref) : ChangeId.t := RevId.change (id x).
Definition commit (x : ref) : CommitId.t := RevId.commit (id x).
Definition change_hex (x : ref) : string := ChangeId.hex (change x).
Definition commit_hex (x : ref) : string := CommitId.hex (commit x).
Definition parent_ids (x : ref) : list CommitId.t :=
  RevHeader.parent_ids (header_at s x).
Definition is_immutable (x : ref) : bool :=
  RevHeader.is_immutable (header_at s x).
End Accessors.

(* ------------------------------------------------------------------ *)
(** ** Eligibility *)

(** [RichHint = (string | ChangeId | CommitId)[]]. *)
Inductive HintPart : Type :=
| Text (text : string)
| OfChange (c : ChangeId.t)
| OfCommit (c : CommitId.t).

Definition RichHint : Type := list HintPart.

(** [Eligibility]: the three-way classification. *)
Inductive Eligibility : Type :=
| yes (hint : RichHint)
| maybe (hint : string)
| no.

(** The discriminant [e.type]. *)
Definition type (e : Eligibility) : string :=
  match e with
  | yes _ => "yes"
  | maybe _ => "maybe"
  | no => "no"
  end.

Definition is_Revision (o : Operand) : bool :=
  match o with Revision _ => true | _ => false end.

Definition is_Merge (o : Operand) : bool :=
  match o with Merge _ => true | _ => false end.

(** [BinaryMutator.canDrag(from)]. *)
Definition canDrag (s : Store) (from : ref) : Eligibility :=
  match operand_at s from with
  | Revision header =>
      (* can't change finalised commits *)
      if is_immutable s header then maybe "(revision is immutable)"
      else yes [Text "Rebasing revision "; OfChange (change s header)]
  | Change header path =>
      if is_immutable s header then maybe "(revision is immutable)"
      else yes [Text ("Squashing changes at " ++ TreePath.relative_path path)]
  | Parent header child =>
      (* removing a parent changes the child *)
      if is_immutable s child then maybe "(child is immutable)"
      else if length (parent_ids s child) =? 1
           then maybe "(child has only one parent)"
      else yes [Text "Removing parent from revision "; OfChange (change s child)]
  | Branch header name =>
      (* can't change our view of remote branches *)
      if RefName.kind_eqb (RefName.type name) RefName.RemoteBranch
      then maybe "(branch is remote)"
      else yes [Text ("Moving branch " ++ RefName.branch_name name)]
  | Repository | Merge _ => no
  end.

(** [new BinaryMutator(from, to).canDrop()]. *)
Definition canDrop (s : Store) (from to : ref) : Eligibility :=
  let f := operand_at s from in
  let t := operand_at s to in
  (* generic prohibitions - don't drop undroppables, don't drop on yourself *)
  if negb (type (canDrag s from) =? "yes")%string
     && negb (is_Revision f && is_Merge t)
  then no
  else if from =? to then no
  else
    match f, t with
    | Revision fh, Revision th =>
        yes [Text "Rebasing revision "; OfChange (change s fh);
             Text " onto "; OfChange (change s th)]
    | Revision fh, Parent th tc =>
        if tc =? fh then no
        else if is_immutable s tc
             then maybe "(can't insert before an immutable revision)"
        else yes [Text "Inserting revision "; OfChange (change s fh);
                  Text " before "; OfChange (change s tc)]
    | Revision fh, Merge th =>
        if (change_hex s th =? change_hex s fh)%string then no
        else yes [Text "Adding parent to revision "; OfChange (change s th)]
    | Revision fh, Repository =>
        yes [Text "Abandoning commit "; OfCommit (commit s fh)]
    | Parent fh fc, Repository =>
        yes [Text "Removing parent from revision "; OfChange (change s fc)]
    | Change fh fp, Revision th =>
        if (change_hex s th =? change_hex s fh)%string then no
        else if is_immutable s th then maybe "(revision is immutable)"
        else yes [Text ("Squashing changes at " ++ TreePath.relative_path fp
                          ++ " into ");
                  OfChange (change s th)]
    | Change fh fp, Repository =>
        (* parent_ids.length == 1, and then parent_ids[0] *)
        match parent_ids s fh with
        | [p] =>
            yes [Text ("Restoring changes at " ++ TreePath.relative_path fp
                         ++ " from parent ");
                 OfCommit p]
        | _ => maybe "Can't restore: revision has multiple parents."
        end
    | Branch fh fn, Revision th =>
        yes [Text ("Moving branch " ++ RefName.branch_name fn ++ " to ");
             OfChange (change s th)]
    | Branch fh fn, Branch th tn =>
        if (RefName.branch_name fn =? RefName.branch_name tn)%string
        then yes [Text ("Resetting branch " ++ RefName.branch_name fn
                          ++ " to remote")]
        else no
    | _, _ => no
    end.

(* ------------------------------------------------------------------ *)
(** ** Dispatch *)

(** A backend request: the command name given to [mutate] with its
    payload.  [from_id] of [copy_changes] is the result of the index
    access [parent_ids[0]], which is [undefined] on an empty array. *)
Inductive Request : Type :=
| move_revision (id : RevId.t) (parent_ids : list RevId.t)
| insert_revision (id after_id before_id : RevId.t)
| move_source (id : RevId.t) (parent_ids : list CommitId.t)
| abandon_revisions (ids : list CommitId.t)
| move_changes (from_id : RevId.t) (to_id : CommitId.t) (paths : list TreePath.t)
| copy_changes (from_id : option CommitId.t) (to_id : RevId.t)
    (paths : list TreePath.t)
| move_branch (to_id : RevId.t) (name : RefName.t).

(** What [doDrop] does to the outside: calls of [mutate] and of
    [console.log], in order. *)
Inductive Effect : Type :=
| mutate (r : Request)
| console_log (message : string).

(** [new BinaryMutator(from, to).doDrop()]. *)
Definition doDrop (s : Store) (from to : ref) : list Effect :=
  match operand_at s from, operand_at s to with
  | Revision fh, Revision th =>
      (* rebase rev onto single target *)
      [mutate (move_revision (id s fh) [id s th])]
  | Revision fh, Parent th tc =>
      (* rebase between targets *)
      [mutate (insert_revision (id s fh) (id s th) (id s tc))]
  | Revision fh, Merge th =>
      (* rebase subtree onto additional targets *)
      let newParents := parent_ids s th ++ [commit s fh] in
      [mutate (move_source (id s th) newParents)]
  | Revision fh, Repository =>
      (* abandon source *)
      [mutate (abandon_revisions [commit s fh])]
  | Parent fh fc, Repository =>
      (* rebase subtree onto fewer targets *)
      let removeCommit := commit s fh in
      let newParents :=
        filter (fun id => negb (CommitId.hex id =? CommitId.hex removeCommit)%string)
               (parent_ids s fc) in
      [mutate (move_source (id s fc) newParents)]
  | Change fh fp, Revision th =>
      (* squash path to target *)
      [mutate (move_changes (id s fh) (commit s th) [fp])]
  | Change fh fp, Repository =>
      (* restore path from source parent to source *)
      [mutate (copy_changes (nth_error (parent_ids s fh) 0) (id s fh) [fp])]
  | Branch fh fn, Revision th =>
      [mutate (move_branch (id s th) fn)]
  | Branch fh fn, Branch th tn =>
      [mutate (move_branch (id s th) fn)]
  | _, _ => [console_log "error: unknown validated mutation"]
  end.

(** The requests among the effects of a call. *)
Fixpoint requests (es : list Effect) : list Request :=
  match es with
  | [] => []
  | mutate r :: es' => r :: requests es'
  | console_log _ :: es' => requests es'
  end.

(* ------------------------------------------------------------------ *)
(** ** Identity by value *)

(** Two header objects carry the same identity pair: equal change hex and
    equal commit hex. *)
Definition same_identity (s : Store) (a b : ref) : Prop :=
  change_hex s a = change_hex s b /\ commit_hex s a = commit_hex s b.

(** Two operand objects denote the same logical entity: the same variant
    with the same identity pairs, and the same path or branch name where
    the variant has one. *)
Definition same_entity (s : Store) (from to : ref) : Prop :=
  match operand_at s from, operand_at s to with
  | Repository, Repository => True
  | Revision a, Revision b => same_identity s a b
  | Merge a, Merge b => same_identity s a b
  | Parent a c, Parent b d => same_identity s a b /\ same_identity s c d
  | Change a p, Change b q =>
      same_identity s a b
      /\ TreePath.relative_path p = TreePath.relative_path q
  | Branch a n, Branch b m =>
      same_identity s a b
      /\ RefName.type n = RefName.type m
      /\ RefName.branch_name n = RefName.branch_name m
  | _, _ => False
  end.

(** A list keeps some entries of another, in their order. *)
Inductive subseq {A : Type} : list A -> list A -> Prop :=
| subseq_nil : subseq [] []
| subseq_skip x l k : subseq l k -> subseq l (x :: k)
| subseq_keep x l k : subseq l k -> subseq (x :: l) (x :: k).

(* ------------------------------------------------------------------ *)
(** ** A store to evaluate on *)

Module Sample.

Definition chg (h : string) : ChangeId.t := ChangeId.mk h h "".
Definition cmt (h : string) : CommitId.t := CommitId.mk h h "".

Definition header (c k : string) (parents : list CommitId.t) (immutable : bool)
  : RevHeader.t :=
  RevHeader.mk (RevId.mk (chg c) (cmt k)) parents immutable false false
               [] "dev@example.org" [].

(** Header objects.  [100] and [101] are two snapshots of the same
    revision [kx], as two renders produce them. *)
Definition headers (x : ref) : RevHeader.t :=
  match x with
  | 100 => header "kx" "c1" [cmt "c0"] false
  | 101 => header "kx" "c1" [cmt "c0"] false
  | 102 => header "ky" "c2" [cmt "c0"] false
  | 103 => header "ki" "c3" [cmt "c0"] true
  | 104 => header "km" "c4" [cmt "c1"; cmt "c2"; cmt "c3"] false
  | 105 => header "kt" "c5" [cmt "c2"] true
  | 106 => header "kr" "c0" [] true
  | _ => header "kr" "c0" [] true
  end.

Definition main_local : RefName.t :=
  RefName.mk RefName.LocalBranch "main" false false.
Definition main_remote : RefName.t :=
  RefName.mk RefName.RemoteBranch "main" false true.
Definition dev_local : RefName.t :=
  RefName.mk RefName.LocalBranch "dev" true false.

Definition a_txt : TreePath.t := TreePath.mk "src/a.txt".

(** Operand objects. *)
Definition operands (x : ref) : Operand :=
  match x with
  | 1 => Revision 100
  | 2 => Revision 101
  | 3 => Revision 102
  | 4 => Revision 103
  | 5 => Merge 104
  | 6 => Parent 100 104
  | 7 => Parent 102 105
  | 8 => Change 103 a_txt
  | 9 => Change 104 a_txt
  | 10 => Change 100 a_txt
  | 11 => Branch 100 main_local
  | 12 => Branch 102 main_remote
  | 13 => Branch 102 dev_local
  | 14 => Branch 100 main_local
  | 15 => Parent 106 100
  | 16 => Revision 105
  | _ => Repository
  end.

Definition store : Store :=
  {| operand_at := operands; header_at := headers |}.

End Sample.

(* ------------------------------------------------------------------ *)
(** ** The revision object ([RevisionObject.svelte]) *)

(** The operand a revision object stands for:
    [child ? { type: "Parent", header, child } : { type: "Revision", header }],
    where [child] is a header object or [null]. *)
Definition RevisionObject_operand (header : ref) (child : option ref) : Operand :=
  match child with
  | Some c => Parent header c
  | None => Revision header
  end.

(** The requests of [onEdit]: the command name given to [mutate] with its
    payload. *)
Inductive EditRequest : Type :=
| create_revision (parent_ids : list RevId.t)
| checkout_revision (id : RevId.t).

(** [onEdit()], the double-click handler of a revision object. *)
Definition onEdit (s : Store) (header : ref) : list EditRequest :=
  if RevHeader.is_working_copy (header_at s header) then []
  else if is_immutable s header then [create_revision [id s header]]
  else [checkout_revision (id s header)].

(** [Array.prototype.findIndex]: the index of the first entry that
    satisfies the test, [-1] when there is none. *)
Fixpoint findIndex_from {A : Type} (test : A -> bool) (l : list A) (i : Z) : Z :=
  match l with
  | [] => (-1)%Z
  | x :: l' => if test x then i else findIndex_from test l' (i + 1)%Z
  end.

Definition findIndex {A : Type} (test : A -> bool) (l : list A) : Z :=
  findIndex_from test l 0%Z.

(** The [pronoun] flag of a revision object shown as a parent:
    [context || ($currentTarget?.type == "Merge" &&
     $currentTarget.header.parent_ids.findIndex((id) => id.hex == header.id.commit.hex) != -1)].
    [currentTarget] is an operand object or [null]. *)
Definition parent_pronoun
  (s : Store) (context : bool) (currentTarget : option ref) (header : ref) : bool :=
  context
  || match currentTarget with
     | Some target =>
         match operand_at s target with
         | Merge th =>
             negb (findIndex
                     (fun id => (CommitId.hex id =? commit_hex s header)%string)
                     (parent_ids s th)
                   =? -1)%Z
         | _ => false
         end
     | None => false
     end.

(* ------------------------------------------------------------------ *)
(** ** The earlier revision of the mutator ([mutators/BinaryMutator.ts]) *)

(** In this revision a header has the two members of its identity pair
    as the fields [change_id] and [commit_id]; they are read here as
    [change] and [commit] of the header.  A hint is an array that may
    carry the flag [commit]. *)
Module Earlier.

(** [Eligibility], with [RichHint = (string | RevId)[] & { commit?: boolean }]. *)
Inductive Eligibility : Type :=
| yes (hint : list HintPart) (commit : option bool)
| maybe (hint : string)
| no.

Definition type (e : Eligibility) : string :=
  match e with
  | yes _ _ => "yes"
  | maybe _ => "maybe"
  | no => "no"
  end.

(** [BinaryMutator.canDrag(from)]. *)
Definition canDrag (s : Store) (from : ref) : Eligibility :=
  match operand_at s from with
  | Revision header =>
      if is_immutable s header then maybe "(revision is immutable)"
      else yes [Text "Rebasing revision "; OfChange (change s header)] None
  | Change header path =>
      if is_immutable s header then maybe "(revision is immutable)"
      else yes [Text ("Squashing changes at " ++ TreePath.relative_path path)]
               None
  | Parent header child =>
      if is_immutable s child then maybe "(child is immutable)"
      else if length (parent_ids s child) =? 1
           then maybe "(child has only one parent)"
      else yes [Text "Removing parent from revision "; OfChange (change s child)]
               None
  | Branch header name =>
      if RefName.kind_eqb (RefName.type name) RefName.RemoteBranch
      then maybe "(branch is remote)"
      else yes [Text ("Moving branch " ++ RefName.branch_name name)] None
  | Repository | Merge _ => no
  end.

(** [new BinaryMutator(from, to).canDrop()]. *)
Definition canDrop (s : Store) (from to : ref) : Eligibility :=
  if negb (type (canDrag s from) =? "yes")%string then no
  else if from =? to then no
  else
    match operand_at s from, operand_at s to with
    | Revision fh, Revision th =>
        yes [Text "Rebasing revision "; OfChange (change s fh);
             Text " onto "; OfChange (change s th)] None
    | Revision fh, Parent th tc =>
        if tc =? fh then no
        else if is_immutable s tc
             then maybe "(can't insert before an immutable revision)"
        else yes [Text "Inserting revision "; OfChange (change s fh);
                  Text " before "; OfChange (change s tc)] None
    | Revision fh, Merge th =>
        if (change_hex s th =? change_hex s fh)%string then no
        else yes [Text "Adding parent to revision "; OfChange (change s th)]
                 None
    | Revision fh, Repository =>
        yes [Text "Abandoning commit "; OfCommit (commit s fh)] (Some true)
    | Parent fh fc, Repository =>
        yes [Text "Removing parent from revision "; OfChange (change s fc)]
            None
    | Change fh fp, Revision th =>
        if (change_hex s th =? change_hex s fh)%string then no
        else if is_immutable s th then maybe "(revision is immutable)"
        else yes [Text ("Squashing changes at " ++ TreePath.relative_path fp
                          ++ " into ");
                  OfChange (change s th)] None
    | Change fh fp, Repository =>
        (* parent_ids.length == 1, and then parent_ids[0] *)
        match parent_ids s fh with
        | [p] =>
            yes [Text ("Restoring changes at " ++ TreePath.relative_path fp
                         ++ " from parent ");
                 OfCommit p] None
        | _ => no
        end
    | Branch fh fn, Revision th =>
        yes [Text ("Moving branch " ++ RefName.branch_name fn ++ " to ");
             OfChange (change s th)] None
    | _, _ => no
    end.

(** The requests of this revision. *)
Inductive Request : Type :=
| abandon_revisions (commit_ids : list CommitId.t)
| move_changes (from_id to_id : ChangeId.t) (paths : list TreePath.t)
| copy_changes (from_id : option CommitId.t) (to_id : ChangeId.t)
    (paths : list TreePath.t).

Inductive Effect : Type :=
| mutate (r : Request)
| console_log (message : string).

(** [new BinaryMutator(from, to).doDrop()].  No branch returns, so the
    last statement follows whatever was done before. *)
Definition doDrop (s : Store) (from to : ref) : list Effect :=
  match operand_at s from, operand_at s to with
  | Revision fh, Revision th =>
      [console_log "unimplemented: rebase (append)"]
  | Revision fh, Parent th tc =>
      [console_log "unimplemented: rebase (insert)"]
  | Revision fh, Merge th =>
      [console_log "unimplemented: rebase (add parent)"]
  | Revision fh, Repository =>
      (* abandon source *)
      [mutate (abandon_revisions [commit s fh])]
  | Parent fh fc, Repository =>
      [console_log "unimplemented: rebase (remove parent)"]
  | Change fh fp, Revision th =>
      (* squash path to target *)
      [mutate (move_changes (change s fh) (change s th) [fp])]
  | Change fh fp, Repository =>
      (* restore path from source parent to source *)
      [mutate (copy_changes (nth_error (parent_ids s fh) 0) (change s fh) [fp])]
  | Branch fh fn, Revision th =>
      [console_log "unimplemented: move branch"]
  | _, _ => []
  end
  ++ [console_log "error: unknown validated mutation"].

Fixpoint requests (es : list Effect) : list Request :=
  match es with
  | [] => []
  | mutate r :: es' => r :: requests es'
  | console_log _ :: es' => requests es'
  end.

End Earlier.

(* ------------------------------------------------------------------ *)
(** ** Stores after a parent edit *)

(** The objects of [Sample] as a later render shows them, once the
    parents of the merge [km] were edited. *)
Module Rendered.

(** [c5] was added to the parents of [km]. *)
Definition headers_added (x : ref) : RevHeader.t :=
  match x with
  | 104 => Sample.header "km" "c6"
             [Sample.cmt "c1"; Sample.cmt "c2"; Sample.cmt "c3"; Sample.cmt "c5"]
             false
  | _ => Sample.headers x
  end.

(** [c1] was removed from the parents of [km]. *)
Definition headers_removed (x : ref) : RevHeader.t :=
  match x with
  | 104 => Sample.header "km" "c7" [Sample.cmt "c2"; Sample.cmt "c3"] false
  | _ => Sample.headers x
  end.

Definition operands (x : ref) : Operand :=
  match x with
  | 17 => Parent 105 104
  | 18 => Revision 104
  | _ => Sample.operands x
  end.

Definition added : Store :=
  {| operand_at := operands; header_at := headers_added |}.

Definition removed : Store :=
  {| operand_at := operands; header_at := headers_removed |}.

End Rendered.

(* ------------------------------------------------------------------ *)
(** ** A store with the working copy *)

(** The objects of [Sample] with the working-copy revision [kw] and its
    revision object. *)
Module Editing.

Definition headers (x : ref) : RevHeader.t :=
  match x with
  | 107 => RevHeader.mk (RevId.mk (Sample.chg "kw") (Sample.cmt "c8"))
             [Sample.cmt "c1"] false true false [] "dev@example.org" []
  | _ => Sample.headers x
  end.

Definition operands (x : ref) : Operand :=
  match x with
  | 19 => Revision 107
  | _ => Sample.operands x
  end.

Definition store : Store :=
  {| operand_at := operands; header_at := headers |}.

End Editing.

(* ------------------------------------------------------------------ *)
(** ** Basic facts *)

Lemma type_cases (e : Eligibility) :
  type e = "yes" \/ type e = "maybe" \/ type e = "no".
Proof. destruct e; simpl; auto. Qed.

(** Objects of different contents are different objects. *)
Lemma distinct_operands (s : Store) (a b : ref) :
  operand_at s a <> operand_at s b -> (a =? b) = false.
Proof.
  intros H. apply Nat.eqb_neq. intros ->. now apply H.
Qed.

Lemma distinct_headers (s : Store) (a b : ref) :
  ~ same_identity s a b -> (a =? b) = false.
Proof.
  intros H. apply Nat.eqb_neq. intros ->. apply H. now split.
Qed.

Lemma same_identity_refl (s : Store) (a : ref) : same_identity s a a.
Proof. now split. Qed.

Lemma same_entity_refl (s : Store) (a : ref) : same_entity s a a.
Proof.
  unfold same_entity. destruct (operand_at s a);
    repeat split; auto using same_identity_refl.
Qed.

Lemma distinct_entities (s : Store) (a b : ref) :
  ~ same_entity s a b -> (a =? b) = false.
Proof.
  intros H. apply Nat.eqb_neq. intros ->. apply H, same_entity_refl.
Qed.

Lemma filter_subseq {A : Type} (f : A -> bool) (l : list A) :
  subseq (filter f l) l.
Proof.
  induction l as [|x l IH]; simpl.
  - constructor.
  - destruct (f x); now constructor.
Qed.

Lemma requests_at_most_one (s : Store) (from to : ref) :
  length (requests (doDrop s from to)) <= 1.
Proof.
  unfold doDrop.
  destruct (operand_at s from), (operand_at s to); simpl; lia.
Qed.

(* ------------------------------------------------------------------ *)
(** ** Drag eligibility *)

(** C8: [canDrag] is total, its classification is one of yes, maybe and
    no, and it is no exactly for the [Repository] and [Merge] variants. *)
Theorem canDrag_no_iff_Repository_or_Merge (s : Store) (from : ref) :
  (type (canDrag s from) = "yes"
   \/ type (canDrag s from) = "maybe"
   \/ type (canDrag s from) = "no")
  /\ (type (canDrag s from) = "no"
      <-> operand_at s from = Repository
          \/ exists header, operand_at s from = Merge header).
Proof.
  split; [apply type_cases|].
  unfold canDrag.
  destruct (operand_at s from) as [|h|h|h c|h p|h n]; simpl.
  - split; auto.
  - destruct (is_immutable s h); simpl; split;
      [discriminate | intros [H|[x H]]; discriminate
      |discriminate | intros [H|[x H]]; discriminate].
  - split; eauto.
  - destruct (is_immutable s c); [|destruct (length (parent_ids s c) =? 1)];
      simpl; split; try discriminate; intros [H|[x H]]; discriminate.
  - destruct (is_immutable s h); simpl; split; try discriminate;
      intros [H|[x H]]; discriminate.
  - destruct (RefName.kind_eqb _ _); simpl; split; try discriminate;
      intros [H|[x H]]; discriminate.
Qed.

(** C9: a [Parent] whose child is immutable and has exactly one parent is
    classified maybe with the hint of the immutability check, which comes
    before the single-parent check. *)
Theorem canDrag_Parent_immutable_child_first
  (s : Store) (from header child : ref) :
  operand_at s from = Parent header child ->
  is_immutable s child = true ->
  length (parent_ids s child) = 1 ->
  canDrag s from = maybe "(child is immutable)".
Proof.
  intros Hfrom Himm _. unfold canDrag. now rewrite Hfrom, Himm.
Qed.

Lemma canDrag_Parent_immutable_child_first_witness :
  length (parent_ids Sample.store 105) = 1
  /\ canDrag Sample.store 7 = maybe "(child is immutable)".
Proof.
  split; [reflexivity|].
  apply (canDrag_Parent_immutable_child_first Sample.store 7 102 105);
    reflexivity.
Defined.

(* ------------------------------------------------------------------ *)
(** ** Adding and removing parents *)

(** C3: a [Revision] dropped on a [Merge] of another change identity is
    classified yes whatever [canDrag] says of the revision, and [doDrop]
    issues the single request [move_source] for the merge, with the
    revision's commit identity appended to the merge's parents. *)
Theorem canDrop_doDrop_Revision_Merge (s : Store) (from to fh th : ref) :
  operand_at s from = Revision fh ->
  operand_at s to = Merge th ->
  change_hex s th <> change_hex s fh ->
  canDrop s from to
    = yes [Text "Adding parent to revision "; OfChange (change s th)]
  /\ doDrop s from to
     = [mutate (move_source (id s th) (parent_ids s th ++ [commit s fh]))].
Proof.
  intros Hfrom Hto Hhex. split.
  - unfold canDrop. rewrite Hfrom, Hto. simpl.
    rewrite andb_false_r.
    rewrite (distinct_operands s from to) by (rewrite Hfrom, Hto; discriminate).
    apply String.eqb_neq in Hhex. now rewrite Hhex.
  - unfold doDrop. now rewrite Hfrom, Hto.
Qed.

Lemma canDrop_doDrop_Revision_Merge_witness :
  canDrag Sample.store 16 = maybe "(revision is immutable)"
  /\ canDrop Sample.store 16 5
     = yes [Text "Adding parent to revision "; OfChange (Sample.chg "km")]
  /\ doDrop Sample.store 16 5
     = [mutate (move_source
                  (RevId.mk (Sample.chg "km") (Sample.cmt "c4"))
                  [Sample.cmt "c1"; Sample.cmt "c2"; Sample.cmt "c3";
                   Sample.cmt "c5"])].
Proof.
  split; [reflexivity|].
  apply (canDrop_doDrop_Revision_Merge Sample.store 16 5 105 104);
    [reflexivity | reflexivity | discriminate].
Defined.

(** C7: a [Parent] whose child is mutable and has two or more parents,
    dropped on the [Repository], is classified yes, and [doDrop] issues
    the single request [move_source] for the child; its parents are the
    child's parents without the entries of the removed commit hex, the
    others in their order. *)
Theorem canDrop_doDrop_Parent_Repository (s : Store) (from to z c : ref) :
  operand_at s from = Parent z c ->
  operand_at s to = Repository ->
  is_immutable s c = false ->
  2 <= length (parent_ids s c) ->
  canDrop s from to
    = yes [Text "Removing parent from revision "; OfChange (change s c)]
  /\ exists newParents,
      doDrop s from to = [mutate (move_source (id s c) newParents)]
      /\ newParents
         = filter (fun p => negb (CommitId.hex p =? commit_hex s z)%string)
                  (parent_ids s c)
      /\ subseq newParents (parent_ids s c)
      /\ forall p, In p newParents
                   <-> In p (parent_ids s c)
                       /\ CommitId.hex p <> commit_hex s z.
Proof.
  intros Hfrom Hto Himm Hlen. split.
  - unfold canDrop, canDrag. rewrite Hfrom, Hto, Himm.
    destruct (length (parent_ids s c) =? 1) eqn:E;
      [apply Nat.eqb_eq in E; lia|].
    simpl.
    now rewrite (distinct_operands s from to)
      by (rewrite Hfrom, Hto; discriminate).
  - unfold doDrop. rewrite Hfrom, Hto.
    eexists. split; [reflexivity|]. split; [reflexivity|].
    split; [apply filter_subseq|].
    intros p. rewrite filter_In, negb_true_iff, String.eqb_neq.
    reflexivity.
Qed.

Lemma canDrop_doDrop_Parent_Repository_witness :
  canDrop Sample.store 6 0
    = yes [Text "Removing parent from revision "; OfChange (Sample.chg "km")]
  /\ exists newParents,
      doDrop Sample.store 6 0
        = [mutate (move_source (RevId.mk (Sample.chg "km") (Sample.cmt "c4"))
                               newParents)]
      /\ newParents = [Sample.cmt "c2"; Sample.cmt "c3"]
      /\ subseq newParents [Sample.cmt "c1"; Sample.cmt "c2"; Sample.cmt "c3"]
      /\ forall p, In p newParents
                   <-> In p [Sample.cmt "c1"; Sample.cmt "c2"; Sample.cmt "c3"]
                       /\ CommitId.hex p <> "c1".
Proof.
  apply (canDrop_doDrop_Parent_Repository Sample.store 6 0 100 104);
    [reflexivity | reflexivity | reflexivity | simpl; lia].
Defined.

(* ------------------------------------------------------------------ *)
(** ** Restoring a change from the parent *)

(** C10: on a [Change] dropped on the [Repository], [doDrop] reads
    [parent_ids[0]] without a guard.  When the header has a parent the
    access is in bounds and the [copy_changes] request carries that
    parent as [from_id]; a yes of [canDrop] means there is exactly one
    parent, so it is such a case.  Only with no parent at all is the
    [from_id] undefined. *)
Theorem doDrop_Change_Repository_from_id
  (s : Store) (from to h : ref) (path : TreePath.t) :
  operand_at s from = Change h path ->
  operand_at s to = Repository ->
  (parent_ids s h <> [] ->
   exists p,
     nth_error (parent_ids s h) 0 = Some p
     /\ 0 < length (parent_ids s h)
     /\ doDrop s from to = [mutate (copy_changes (Some p) (id s h) [path])])
  /\ (type (canDrop s from to) = "yes" ->
      exists p,
        parent_ids s h = [p]
        /\ doDrop s from to = [mutate (copy_changes (Some p) (id s h) [path])])
  /\ (parent_ids s h = [] ->
      doDrop s from to = [mutate (copy_changes None (id s h) [path])]).
Proof.
  intros Hfrom Hto. split; [|split].
  - intros Hne. unfold doDrop. rewrite Hfrom, Hto.
    destruct (parent_ids s h) as [|p ps]; [contradiction|].
    exists p. simpl. repeat split. lia.
  - unfold canDrop, canDrag, doDrop. rewrite Hfrom, Hto.
    destruct (is_immutable s h); simpl; [discriminate|].
    rewrite (distinct_operands s from to)
      by (rewrite Hfrom, Hto; discriminate).
    destruct (parent_ids s h) as [|p [|q ps]]; simpl; try discriminate.
    intros _. now exists p.
  - intros Hnil. unfold doDrop. now rewrite Hfrom, Hto, Hnil.
Qed.

Lemma doDrop_Change_Repository_from_id_witness :
  (exists p,
      nth_error (parent_ids Sample.store 104) 0 = Some p
      /\ 0 < length (parent_ids Sample.store 104)
      /\ doDrop Sample.store 9 0
         = [mutate (copy_changes (Some p) (id Sample.store 104) [Sample.a_txt])])
  /\ (exists p,
         parent_ids Sample.store 100 = [p]
         /\ doDrop Sample.store 10 0
            = [mutate (copy_changes (Some p) (id Sample.store 100)
                                    [Sample.a_txt])]).
Proof.
  split.
  - apply (proj1 (doDrop_Change_Repository_from_id
                    Sample.store 9 0 104 Sample.a_txt eq_refl eq_refl)).
    discriminate.
  - apply (proj1 (proj2 (doDrop_Change_Repository_from_id
                           Sample.store 10 0 100 Sample.a_txt eq_refl eq_refl))).
    reflexivity.
Defined.

(** C4, as the claim states it, fails: an immutable change with exactly
    one parent is stopped by the drag gate. *)
Lemma canDrop_Change_Repository_immutable_single_parent :
  operand_at Sample.store 8 = Change 103 Sample.a_txt
  /\ operand_at Sample.store 0 = Repository
  /\ length (parent_ids Sample.store 103) = 1
  /\ canDrop Sample.store 8 0 = no
  /\ ~ (type (canDrop Sample.store 8 0) = "yes"
        <-> length (parent_ids Sample.store 103) = 1).
Proof.
  repeat split; intros [_ H]; specialize (H eq_refl); discriminate.
Qed.

(** C4, amended: for a [Change] with a mutable header, [canDrop] on the
    [Repository] is yes exactly when the header has one parent, and maybe
    otherwise; with an immutable header it is no.  So it is never yes
    when the number of parents is not one, and a [doDrop] that follows a
    yes issues [copy_changes] only for a header with one parent. *)
Theorem canDrop_Change_Repository
  (s : Store) (from to h : ref) (path : TreePath.t) :
  operand_at s from = Change h path ->
  operand_at s to = Repository ->
  (is_immutable s h = false ->
   (type (canDrop s from to) = "yes" <-> length (parent_ids s h) = 1)
   /\ (length (parent_ids s h) <> 1 -> type (canDrop s from to) = "maybe"))
  /\ (is_immutable s h = true -> canDrop s from to = no)
  /\ (length (parent_ids s h) <> 1 -> type (canDrop s from to) <> "yes").
Proof.
  intros Hfrom Hto.
  assert (Hne : (from =? to) = false)
    by (apply (distinct_operands s); rewrite Hfrom, Hto; discriminate).
  unfold canDrop, canDrag. rewrite Hfrom, Hto, Hne.
  destruct (is_immutable s h); cbn [negb andb type String.eqb Ascii.eqb Bool.eqb].
  - intuition discriminate.
  - destruct (parent_ids s h) as [|p [|q ps]]; cbn [type length];
      intuition (discriminate || lia).
Qed.

Lemma canDrop_Change_Repository_witness :
  ((type (canDrop Sample.store 10 0) = "yes"
    <-> length (parent_ids Sample.store 100) = 1)
   /\ (length (parent_ids Sample.store 100) <> 1 ->
       type (canDrop Sample.store 10 0) = "maybe"))
  /\ canDrop Sample.store 8 0 = no
  /\ type (canDrop Sample.store 9 0) <> "yes".
Proof.
  split; [|split].
  - apply (canDrop_Change_Repository Sample.store 10 0 100 Sample.a_txt);
      reflexivity.
  - apply (canDrop_Change_Repository Sample.store 8 0 103 Sample.a_txt);
      reflexivity.
  - apply (canDrop_Change_Repository Sample.store 9 0 104 Sample.a_txt);
      [reflexivity | reflexivity | simpl; lia].
Defined.

(* ------------------------------------------------------------------ *)
(** ** Eligibility and dispatch together *)

(** C2, as the claim states it, fails: [doDrop] does not look at the
    eligibility, and issues its request for an immutable revision
    dropped on another revision, which [canDrop] classifies no. *)
Lemma doDrop_request_without_yes :
  operand_at Sample.store 4 = Revision 103
  /\ operand_at Sample.store 3 = Revision 102
  /\ is_immutable Sample.store 103 = true
  /\ canDrop Sample.store 4 3 = no
  /\ requests (doDrop Sample.store 4 3)
     = [move_revision (RevId.mk (Sample.chg "ki") (Sample.cmt "c3"))
                      [RevId.mk (Sample.chg "ky") (Sample.cmt "c2")]]
  /\ ~ (requests (doDrop Sample.store 4 3) <> []
        <-> type (canDrop Sample.store 4 3) = "yes").
Proof.
  repeat split. intros [H _].
  assert (E : type (canDrop Sample.store 4 3) = "yes")
    by (apply H; discriminate).
  discriminate E.
Qed.

(** C2, amended: [doDrop] issues a request exactly for the nine variant
    combinations it dispatches, whatever [canDrop] says of the pair, and
    never more than one.  A pair that [canDrop] classifies yes is one of
    them, so it gets exactly one request; and when [doDrop] issues no
    request, [canDrop] is no. *)
Theorem doDrop_request_iff_dispatched (s : Store) (from to : ref) :
  length (requests (doDrop s from to)) <= 1
  /\ (requests (doDrop s from to) <> []
      <-> match operand_at s from, operand_at s to with
          | Revision _, Revision _
          | Revision _, Parent _ _
          | Revision _, Merge _
          | Revision _, Repository
          | Parent _ _, Repository
          | Change _ _, Revision _
          | Change _ _, Repository
          | Branch _ _, Revision _
          | Branch _ _, Branch _ _ => True
          | _, _ => False
          end)
  /\ (type (canDrop s from to) = "yes" ->
      exists r, doDrop s from to = [mutate r])
  /\ (requests (doDrop s from to) = [] -> canDrop s from to = no).
Proof.
  split; [apply requests_at_most_one|].
  unfold canDrop, doDrop.
  destruct (operand_at s from) as [|fh|fh|fh fc|fh fp|fh fn],
           (operand_at s to) as [|th|th|th tc|th tp|th tn];
    cbn [requests];
    (split; [split; [intros H; try exact I; now contradiction H
                    | intros H; try contradiction H; discriminate]|]);
    (split; [| intros H; try discriminate H]);
    try (intros _; eexists; reflexivity);
    destruct (negb _ && negb _); try reflexivity; try discriminate;
    destruct (from =? to); try reflexivity; discriminate.
Qed.

Lemma doDrop_request_iff_dispatched_witness :
  requests (doDrop Sample.store 4 3) <> []
  /\ (exists r, doDrop Sample.store 1 3 = [mutate r])
  /\ canDrop Sample.store 0 1 = no.
Proof.
  split; [|split].
  - apply (proj1 (proj2 (doDrop_request_iff_dispatched Sample.store 4 3))).
    exact I.
  - apply (proj1 (proj2 (proj2 (doDrop_request_iff_dispatched Sample.store 1 3)))).
    reflexivity.
  - apply (proj2 (proj2 (proj2 (doDrop_request_iff_dispatched Sample.store 0 1)))).
    reflexivity.
Defined.

(* ------------------------------------------------------------------ *)
(** ** Inserting a revision before a child *)

(** C5, as the claim states it, fails: an immutable revision dropped on
    the parent edge of a mutable child that is another entity is
    classified no by the drag gate, where the claim has yes. *)
Lemma canDrop_Revision_Parent_immutable_source :
  operand_at Sample.store 4 = Revision 103
  /\ operand_at Sample.store 6 = Parent 100 104
  /\ ~ same_identity Sample.store 104 103
  /\ is_immutable Sample.store 104 = false
  /\ canDrop Sample.store 4 6 = no
  /\ ~ (canDrop Sample.store 4 6 = no <-> same_identity Sample.store 104 103).
Proof.
  assert (Hid : ~ same_identity Sample.store 104 103)
    by (intros [H _]; discriminate H).
  repeat split; [exact Hid|].
  intros [H _]. apply Hid, H. reflexivity.
Qed.

(** C5, amended: for a [Revision] with a mutable header dropped on a
    [Parent], [canDrop] is no when the child is the revision's own
    header, and when the child is another entity it is maybe if the
    child is immutable and yes if not.  For a [Revision] with an
    immutable header it is no. *)
Theorem canDrop_Revision_Parent (s : Store) (from to a z c : ref) :
  operand_at s from = Revision a ->
  operand_at s to = Parent z c ->
  (is_immutable s a = true -> canDrop s from to = no)
  /\ (c = a -> canDrop s from to = no)
  /\ (is_immutable s a = false -> ~ same_identity s c a ->
      type (canDrop s from to) = if is_immutable s c then "maybe" else "yes").
Proof.
  intros Hfrom Hto.
  assert (Hne : (from =? to) = false)
    by (apply (distinct_operands s); rewrite Hfrom, Hto; discriminate).
  unfold canDrop, canDrag. rewrite Hfrom, Hto, Hne.
  split; [|split].
  - intros ->. reflexivity.
  - intros ->. rewrite Nat.eqb_refl.
    now destruct (is_immutable s a).
  - intros -> Hid. cbn [type negb andb String.eqb Ascii.eqb Bool.eqb is_Revision
                        is_Merge].
    rewrite (distinct_headers s c a Hid).
    now destruct (is_immutable s c).
Qed.

Lemma canDrop_Revision_Parent_witness :
  canDrop Sample.store 4 6 = no
  /\ canDrop Sample.store 1 15 = no
  /\ type (canDrop Sample.store 3 6) = "yes"
  /\ type (canDrop Sample.store 1 7) = "maybe".
Proof.
  split; [|split; [|split]].
  - apply (proj1 (canDrop_Revision_Parent Sample.store 4 6 103 100 104
                    eq_refl eq_refl)).
    reflexivity.
  - apply (proj1 (proj2 (canDrop_Revision_Parent Sample.store 1 15 100 106 100
                           eq_refl eq_refl))).
    reflexivity.
  - apply (proj2 (proj2 (canDrop_Revision_Parent Sample.store 3 6 102 100 104
                           eq_refl eq_refl))); [reflexivity|].
    intros [H _]. discriminate H.
  - apply (proj2 (proj2 (canDrop_Revision_Parent Sample.store 1 7 100 102 105
                           eq_refl eq_refl))); [reflexivity|].
    intros [H _]. discriminate H.
Defined.

(* ------------------------------------------------------------------ *)
(** ** Resetting a branch *)

(** C6, as the claim states it, fails: a remote branch dropped on the
    local branch of the same name is stopped by the drag gate, and a
    branch dropped on itself is stopped by the self-drop gate. *)
Lemma canDrop_Branch_Branch_same_name_no :
  operand_at Sample.store 12 = Branch 102 Sample.main_remote
  /\ operand_at Sample.store 11 = Branch 100 Sample.main_local
  /\ RefName.branch_name Sample.main_remote
     = RefName.branch_name Sample.main_local
  /\ canDrop Sample.store 12 11 = no
  /\ canDrop Sample.store 11 11 = no
  /\ ~ (type (canDrop Sample.store 12 11) = "yes"
        <-> RefName.branch_name Sample.main_remote
            = RefName.branch_name Sample.main_local).
Proof.
  repeat split. intros [_ H]. specialize (H eq_refl). discriminate H.
Qed.

(** C6, amended: for [Branch] operands, when the dragged branch is local
    and the two operands are not one entity, [canDrop] is yes if the
    branch names are equal and no if they differ.  When the dragged
    branch is remote, or both operands are one object, it is no. *)
Theorem canDrop_Branch_Branch
  (s : Store) (from to fh th : ref) (fn tn : RefName.t) :
  operand_at s from = Branch fh fn ->
  operand_at s to = Branch th tn ->
  (RefName.type fn = RefName.RemoteBranch \/ from = to ->
   canDrop s from to = no)
  /\ (RefName.type fn = RefName.LocalBranch -> ~ same_entity s from to ->
      (type (canDrop s from to) = "yes"
       <-> RefName.branch_name fn = RefName.branch_name tn)
      /\ (RefName.branch_name fn <> RefName.branch_name tn ->
          canDrop s from to = no)).
Proof.
  intros Hfrom Hto. unfold canDrop, canDrag. rewrite Hfrom, Hto. split.
  - intros [Hremote | ->].
    + now rewrite Hremote.
    + rewrite Nat.eqb_refl.
      now destruct (RefName.kind_eqb (RefName.type fn) RefName.RemoteBranch).
  - intros Hlocal Hent. rewrite Hlocal.
    rewrite (distinct_entities s from to Hent).
    cbn [RefName.kind_eqb type negb andb String.eqb Ascii.eqb Bool.eqb].
    destruct (RefName.branch_name fn =? RefName.branch_name tn)%string eqn:E.
    + apply String.eqb_eq in E. cbn [type]. intuition congruence.
    + apply String.eqb_neq in E. cbn [type]. intuition discriminate.
Qed.

Lemma canDrop_Branch_Branch_witness :
  canDrop Sample.store 12 11 = no
  /\ canDrop Sample.store 11 11 = no
  /\ (type (canDrop Sample.store 11 12) = "yes" <-> "main" = "main")
  /\ canDrop Sample.store 13 12 = no.
Proof.
  split; [|split; [|split]].
  - apply (proj1 (canDrop_Branch_Branch Sample.store 12 11 102 100
                    Sample.main_remote Sample.main_local eq_refl eq_refl)).
    left. reflexivity.
  - apply (proj1 (canDrop_Branch_Branch Sample.store 11 11 100 100
                    Sample.main_local Sample.main_local eq_refl eq_refl)).
    right. reflexivity.
  - apply (proj2 (canDrop_Branch_Branch Sample.store 11 12 100 102
                    Sample.main_local Sample.main_remote eq_refl eq_refl));
      [reflexivity|].
    intros [[H _] _]. discriminate H.
  - apply (proj2 (canDrop_Branch_Branch Sample.store 13 12 102 102
                    Sample.dev_local Sample.main_remote eq_refl eq_refl));
      [reflexivity | | discriminate].
    intros [_ [H _]]. discriminate H.
Defined.

(* ------------------------------------------------------------------ *)
(** ** Dropping an entity on itself *)

(** An operand dropped on the very same object is classified no. *)
Lemma canDrop_same_object (s : Store) (x : ref) : canDrop s x x = no.
Proof.
  unfold canDrop. rewrite Nat.eqb_refl.
  now destruct (negb _ && negb _).
Qed.

(** C1: the self-drop gate compares objects, not identities.  Two
    snapshots of one revision, with equal contents, are two objects, and
    dropping one on the other is classified yes; so are two operand
    objects for one local branch. *)
Theorem canDrop_same_entity_two_objects :
  header_at Sample.store 100 = header_at Sample.store 101
  /\ same_entity Sample.store 1 2
  /\ canDrop Sample.store 1 2
     = yes [Text "Rebasing revision "; OfChange (Sample.chg "kx");
            Text " onto "; OfChange (Sample.chg "kx")]
  /\ operand_at Sample.store 11 = operand_at Sample.store 14
  /\ same_entity Sample.store 11 14
  /\ canDrop Sample.store 11 14
     = yes [Text "Resetting branch main to remote"].
Proof. repeat split. Qed.

(* ------------------------------------------------------------------ *)
(** ** The eligibility table, cell by cell *)

Ltac split_gate :=
  repeat match goal with
         | |- context [is_immutable ?s ?h] =>
             destruct (is_immutable s h) eqn:?
         | |- context [length ?l =? 1] =>
             destruct (length l =? 1) eqn:?
         | |- context [RefName.kind_eqb ?a ?b] =>
             destruct (RefName.kind_eqb a b) eqn:?
         end.

Ltac nat_facts :=
  repeat match goal with
         | H : (_ =? _) = true |- _ => apply Nat.eqb_eq in H
         | H : (_ =? _) = false |- _ => apply Nat.eqb_neq in H
         | H : (_ =? _)%string = true |- _ => apply String.eqb_eq in H
         | H : (_ =? _)%string = false |- _ => apply String.eqb_neq in H
         end.

(** X1: [canDrop] is yes in exactly these cells of the table, under
    these conditions. *)
Theorem canDrop_yes_table (s : Store) (from to : ref) :
  type (canDrop s from to) = "yes"
  <-> match operand_at s from, operand_at s to with
      | Revision fh, Revision th => is_immutable s fh = false /\ from <> to
      | Revision fh, Parent th tc =>
          is_immutable s fh = false /\ tc <> fh /\ is_immutable s tc = false
      | Revision fh, Merge th => change_hex s th <> change_hex s fh
      | Revision fh, Repository => is_immutable s fh = false
      | Parent fh fc, Repository =>
          is_immutable s fc = false /\ length (parent_ids s fc) <> 1
      | Change fh fp, Revision th =>
          is_immutable s fh = false
          /\ change_hex s th <> change_hex s fh
          /\ is_immutable s th = false
      | Change fh fp, Repository =>
          is_immutable s fh = false /\ length (parent_ids s fh) = 1
      | Branch fh fn, Revision th =>
          RefName.type fn <> RefName.RemoteBranch
      | Branch fh fn, Branch th tn =>
          RefName.type fn <> RefName.RemoteBranch
          /\ from <> to
          /\ RefName.branch_name fn = RefName.branch_name tn
      | _, _ => False
      end.
Proof.
  unfold canDrop, canDrag.
  destruct (operand_at s from) as [|fh|fh|fh fc|fh fp|fh fn] eqn:Hf,
           (operand_at s to) as [|th|th|th tc|th tp|th tn] eqn:Ht;
    cbn [is_Revision is_Merge andb negb];
    try (cbn [type String.eqb Ascii.eqb Bool.eqb negb andb];
         split; [discriminate | contradiction]);
    split_gate;
    cbn [type String.eqb Ascii.eqb Bool.eqb negb andb];
    try rewrite andb_false_r;
    try (destruct (from =? to) eqn:?);
    try (destruct (tc =? fh) eqn:?);
    try (destruct (change_hex s th =? change_hex s fh)%string eqn:?);
    try (destruct (RefName.branch_name fn =? RefName.branch_name tn)%string eqn:?);
    try (destruct (parent_ids s fh) as [|p [|q ps]] eqn:?);
    cbn [type length] in *; nat_facts;
    try (assert (from <> to) by (intros ->; congruence));
    try (destruct (RefName.type fn); cbn in *);
    intuition (try discriminate; try congruence; try lia).
Qed.

(** X2: [canDrop] is maybe in exactly three cells: a mutable revision
    before an immutable child, a mutable change into an immutable
    revision of another change identity, and a mutable change restored
    when its header does not have exactly one parent. *)
Theorem canDrop_maybe_table (s : Store) (from to : ref) :
  type (canDrop s from to) = "maybe"
  <-> match operand_at s from, operand_at s to with
      | Revision fh, Parent th tc =>
          is_immutable s fh = false /\ tc <> fh /\ is_immutable s tc = true
      | Change fh fp, Revision th =>
          is_immutable s fh = false
          /\ change_hex s th <> change_hex s fh
          /\ is_immutable s th = true
      | Change fh fp, Repository =>
          is_immutable s fh = false /\ length (parent_ids s fh) <> 1
      | _, _ => False
      end.
Proof.
  unfold canDrop, canDrag.
  destruct (operand_at s from) as [|fh|fh|fh fc|fh fp|fh fn] eqn:Hf,
           (operand_at s to) as [|th|th|th tc|th tp|th tn] eqn:Ht;
    cbn [is_Revision is_Merge andb negb];
    split_gate;
    cbn [type String.eqb Ascii.eqb Bool.eqb negb andb];
    try rewrite andb_false_r;
    try (destruct (from =? to) eqn:?);
    try (destruct (tc =? fh) eqn:?);
    try (destruct (change_hex s th =? change_hex s fh)%string eqn:?);
    try (destruct (RefName.branch_name fn =? RefName.branch_name tn)%string eqn:?);
    try (destruct (parent_ids s fh) as [|p [|q ps]] eqn:?);
    cbn [type length] in *; nat_facts;
    try (assert (from <> to) by (intros ->; congruence));
    intuition (try discriminate; try congruence; try lia).
Qed.

(* ------------------------------------------------------------------ *)
(** ** The dispatcher against the table *)

(** X3: a call of [doDrop] either issues one request and nothing else,
    or only logs the error; it logs only for pairs that [canDrop]
    classifies no.  So every pair classified yes or maybe is
    dispatched. *)
Theorem doDrop_logs_only_no_pairs (s : Store) (from to : ref) :
  (exists r, doDrop s from to = [mutate r])
  \/ (doDrop s from to = [console_log "error: unknown validated mutation"]
      /\ canDrop s from to = no).
Proof.
  unfold doDrop, canDrop.
  destruct (operand_at s from) as [|fh|fh|fh fc|fh fp|fh fn],
           (operand_at s to) as [|th|th|th tc|th tp|th tn];
    try (left; eexists; reflexivity);
    right; (split; [reflexivity|]);
    destruct (negb _ && negb _); try reflexivity;
    destruct (from =? to); reflexivity.
Qed.

(* ------------------------------------------------------------------ *)
(** ** Parent lists of the requests *)

Section ParentLists.
Variable c : string.

Let other (p : CommitId.t) : bool := negb (CommitId.hex p =? c)%string.

Lemma filter_other_absent (l : list CommitId.t) :
  ~ In c (map CommitId.hex l) -> filter other l = l.
Proof.
  induction l as [|p l IH]; simpl; intros Hnot; [reflexivity|].
  unfold other at 1.
  destruct (CommitId.hex p =? c)%string eqn:E.
  - apply String.eqb_eq in E. exfalso. apply Hnot. now left.
  - simpl. f_equal. apply IH. intros Hin. apply Hnot. now right.
Qed.

Lemma filter_other_none (l : list CommitId.t) :
  ~ In c (map CommitId.hex (filter other l)).
Proof.
  rewrite in_map_iff. intros [p [Hhex Hin]].
  apply filter_In in Hin. destruct Hin as [_ Hp].
  unfold other in Hp. apply negb_true_iff, String.eqb_neq in Hp.
  contradiction.
Qed.

Lemma filter_other_one (l : list CommitId.t) :
  NoDup (map CommitId.hex l) ->
  In c (map CommitId.hex l) ->
  S (length (filter other l)) = length l.
Proof.
  induction l as [|p l IH]; simpl; intros Hnd Hin; [contradiction|].
  inversion Hnd as [|x xs Hfresh Hrest]; subst.
  unfold other at 1.
  destruct (CommitId.hex p =? c)%string eqn:E.
  - apply String.eqb_eq in E. simpl.
    rewrite filter_other_absent; [reflexivity|]. now rewrite <- E.
  - apply String.eqb_neq in E. simpl. f_equal. apply IH; [assumption|].
    destruct Hin as [Hin|Hin]; [contradiction|assumption].
Qed.

Lemma filter_other_app_last (l : list CommitId.t) (p : CommitId.t) :
  CommitId.hex p = c ->
  ~ In c (map CommitId.hex l) ->
  filter other (l ++ [p]) = l.
Proof.
  intros Hp Hnot. rewrite filter_app, filter_other_absent by assumption.
  simpl. unfold other. rewrite Hp, String.eqb_refl. simpl.
  apply app_nil_r.
Qed.

End ParentLists.

Lemma NoDup_snoc {A : Type} (l : list A) (x : A) :
  NoDup (l ++ [x]) <-> NoDup l /\ ~ In x l.
Proof.
  split.
  - intros H. apply NoDup_remove in H. now rewrite app_nil_r in H.
  - intros [Hl Hx]. apply NoDup_app; [assumption | repeat constructor; auto |].
    intros a Ha [<-|[]]. contradiction.
Qed.

(** X4: when the commit hexes of the child's parents are distinct and
    the removed parent is one of them, the request of a [Parent] dropped
    on the [Repository] has exactly one parent fewer than the child; if
    [canDrop] is yes for the pair, at least one parent is left. *)
Theorem doDrop_Parent_Repository_removes_one (s : Store) (from to z c : ref) :
  operand_at s from = Parent z c ->
  operand_at s to = Repository ->
  NoDup (map CommitId.hex (parent_ids s c)) ->
  In (commit_hex s z) (map CommitId.hex (parent_ids s c)) ->
  exists newParents,
    doDrop s from to = [mutate (move_source (id s c) newParents)]
    /\ S (length newParents) = length (parent_ids s c)
    /\ ~ In (commit_hex s z) (map CommitId.hex newParents)
    /\ (type (canDrop s from to) = "yes" -> newParents <> []).
Proof.
  intros Hfrom Hto Hnd Hin. unfold doDrop. rewrite Hfrom, Hto.
  eexists. split; [reflexivity|].
  pose proof (filter_other_one (commit_hex s z) _ Hnd Hin) as Hlen.
  split; [exact Hlen|]. split; [apply filter_other_none|].
  unfold canDrop, canDrag. rewrite Hfrom, Hto.
  destruct (is_immutable s c); [discriminate|].
  destruct (length (parent_ids s c) =? 1) eqn:Hone; [discriminate|].
  apply Nat.eqb_neq in Hone.
  intros _ Hnil. unfold commit_hex in Hlen. rewrite Hnil in Hlen.
  simpl in Hlen. congruence.
Qed.

Lemma doDrop_Parent_Repository_removes_one_witness :
  exists newParents,
    doDrop Sample.store 6 0
    = [mutate (move_source (id Sample.store 104) newParents)]
    /\ S (length newParents) = 3
    /\ ~ In "c1" (map CommitId.hex newParents)
    /\ (type (canDrop Sample.store 6 0) = "yes" -> newParents <> []).
Proof.
  apply (doDrop_Parent_Repository_removes_one Sample.store 6 0 100 104);
    [reflexivity | reflexivity | | simpl; auto].
  simpl. repeat constructor; simpl; intuition discriminate.
Defined.

(** X5: the request of a [Revision] dropped on a [Merge] has one parent
    more than the merge.  No check is made that the revision is not a
    parent already: with distinct commit hexes among the merge's
    parents, those of the request are distinct exactly when the
    revision's commit hex is not among them. *)
Theorem doDrop_Revision_Merge_distinct_parents (s : Store) (from to fh th : ref) :
  operand_at s from = Revision fh ->
  operand_at s to = Merge th ->
  NoDup (map CommitId.hex (parent_ids s th)) ->
  exists newParents,
    doDrop s from to = [mutate (move_source (id s th) newParents)]
    /\ length newParents = S (length (parent_ids s th))
    /\ (NoDup (map CommitId.hex newParents)
        <-> ~ In (commit_hex s fh) (map CommitId.hex (parent_ids s th))).
Proof.
  intros Hfrom Hto Hnd. unfold doDrop. rewrite Hfrom, Hto.
  eexists. split; [reflexivity|]. split.
  - rewrite length_app. simpl. lia.
  - rewrite map_app. simpl. rewrite NoDup_snoc. unfold commit_hex. tauto.
Qed.

Lemma doDrop_Revision_Merge_distinct_parents_witness :
  exists newParents,
    doDrop Sample.store 16 5
    = [mutate (move_source (id Sample.store 104) newParents)]
    /\ length newParents = 4
    /\ (NoDup (map CommitId.hex newParents)
        <-> ~ In "c5" ["c1"; "c2"; "c3"]).
Proof.
  apply (doDrop_Revision_Merge_distinct_parents Sample.store 16 5 105 104);
    [reflexivity | reflexivity |].
  simpl. repeat constructor; simpl; intuition discriminate.
Defined.

(** X6: adding a parent and removing it again is a round trip.  Let a
    [Revision] be dropped on a [Merge] that does not have it as a
    parent, and let a later store show the child with the parents of
    that request.  Then dropping the [Parent] edge of the added parent
    on the [Repository] requests the parents the merge had before. *)
Theorem doDrop_add_then_remove_parent
  (s s' : Store) (from to fh th from' to' z c : ref)
  (target : RevId.t) (added : list CommitId.t) :
  operand_at s from = Revision fh ->
  operand_at s to = Merge th ->
  ~ In (commit_hex s fh) (map CommitId.hex (parent_ids s th)) ->
  doDrop s from to = [mutate (move_source target added)] ->
  operand_at s' from' = Parent z c ->
  operand_at s' to' = Repository ->
  parent_ids s' c = added ->
  commit_hex s' z = commit_hex s fh ->
  doDrop s' from' to' = [mutate (move_source (id s' c) (parent_ids s th))].
Proof.
  intros Hfrom Hto Hnot Hadd Hfrom' Hto' Hps Hz.
  unfold doDrop in Hadd. rewrite Hfrom, Hto in Hadd.
  injection Hadd as _ <-.
  unfold doDrop. rewrite Hfrom', Hto', Hps.
  fold (commit_hex s' z). rewrite Hz.
  now rewrite filter_other_app_last.
Qed.

Lemma doDrop_add_then_remove_parent_witness :
  doDrop Rendered.added 17 0
  = [mutate (move_source (id Rendered.added 104)
                         [Sample.cmt "c1"; Sample.cmt "c2"; Sample.cmt "c3"])].
Proof.
  apply (doDrop_add_then_remove_parent
           Sample.store Rendered.added 16 5 105 104 17 0 105 104
           (id Sample.store 104)
           [Sample.cmt "c1"; Sample.cmt "c2"; Sample.cmt "c3"; Sample.cmt "c5"]);
    try reflexivity.
  simpl. intuition discriminate.
Defined.

(* ------------------------------------------------------------------ *)
(** ** The revision object *)

Lemma findIndex_from_none {A : Type} (test : A -> bool) (l : list A) (i : Z) :
  (0 <= i)%Z ->
  findIndex_from test l i = (-1)%Z <-> forall x, In x l -> test x = false.
Proof.
  revert i. induction l as [|y l IH]; intros i Hi; simpl.
  - split; [intros _ x [] | reflexivity].
  - destruct (test y) eqn:Ey.
    + split; [lia|]. intros H. specialize (H y (or_introl eq_refl)). congruence.
    + rewrite IH by lia. split.
      * intros H x [<-|Hx]; auto.
      * intros H x Hx. apply H. now right.
Qed.

Lemma findIndex_found {A : Type} (test : A -> bool) (l : list A) :
  (findIndex test l =? -1)%Z = false <-> exists x, In x l /\ test x = true.
Proof.
  unfold findIndex. rewrite Z.eqb_neq, findIndex_from_none by lia.
  split.
  - intros H. induction l as [|y l IH].
    + exfalso. apply H. intros x [].
    + destruct (test y) eqn:Ey; [exists y; simpl; auto|].
      destruct IH as [x [Hx Ht]].
      * intros Hall. apply H. intros x [<-|Hx]; auto.
      * exists x. simpl. auto.
  - intros [x [Hx Ht]] Hall. specialize (Hall x Hx). congruence.
Qed.

(** X7: [onEdit] issues nothing for the working copy and exactly one
    request for any other revision: a checkout of the revision when its
    [Revision] operand is draggable, and a new revision on top of it
    when the header is immutable, which is when [canDrag] is maybe.  One
    of the two is always the case. *)
Theorem onEdit_checkout_iff_draggable (s : Store) (x header : ref) :
  operand_at s x = RevisionObject_operand header None ->
  (RevHeader.is_working_copy (header_at s header) = true ->
   onEdit s header = [])
  /\ (RevHeader.is_working_copy (header_at s header) = false ->
      type (canDrag s x) = "yes" ->
      onEdit s header = [checkout_revision (id s header)])
  /\ (RevHeader.is_working_copy (header_at s header) = false ->
      is_immutable s header = true ->
      onEdit s header = [create_revision [id s header]])
  /\ (type (canDrag s x) = "yes" <-> is_immutable s header = false)
  /\ (canDrag s x = maybe "(revision is immutable)"
      <-> is_immutable s header = true).
Proof.
  intros Hx. unfold onEdit, canDrag. rewrite Hx. cbn [RevisionObject_operand].
  destruct (RevHeader.is_working_copy (header_at s header)),
           (is_immutable s header);
    cbn [type]; repeat split; intros; try reflexivity; discriminate.
Qed.

Lemma onEdit_checkout_iff_draggable_witness :
  onEdit Editing.store 107 = []
  /\ onEdit Editing.store 100 = [checkout_revision (id Editing.store 100)]
  /\ onEdit Editing.store 103 = [create_revision [id Editing.store 103]].
Proof.
  split; [|split].
  - apply (proj1 (onEdit_checkout_iff_draggable Editing.store 19 107 eq_refl)).
    reflexivity.
  - apply (proj1 (proj2 (onEdit_checkout_iff_draggable
                           Editing.store 1 100 eq_refl)));
      reflexivity.
  - apply (proj1 (proj2 (proj2 (onEdit_checkout_iff_draggable
                                  Editing.store 4 103 eq_refl))));
      reflexivity.
Defined.

(** X8: a revision object shown as a parent has its [pronoun] flag set
    exactly when it has the context menu, or the current target is a
    [Merge] with a parent of the object's commit hex. *)
Theorem parent_pronoun_iff
  (s : Store) (context : bool) (currentTarget : option ref) (header : ref) :
  parent_pronoun s context currentTarget header = true
  <-> context = true
      \/ exists target th p,
          currentTarget = Some target
          /\ operand_at s target = Merge th
          /\ In p (parent_ids s th)
          /\ CommitId.hex p = commit_hex s header.
Proof.
  unfold parent_pronoun. rewrite orb_true_iff.
  apply or_iff_compat_l.
  destruct currentTarget as [target|].
  - destruct (operand_at s target) as [|h|th|h c|h p|h n] eqn:Ht;
      try (split; [discriminate | intros [t' [th' [p' [E [Hm _]]]]];
                                  injection E as <-; congruence]).
    rewrite negb_true_iff, findIndex_found. split.
    + intros [p [Hp Hhex]]. apply String.eqb_eq in Hhex.
      exists target, th, p. auto.
    + intros [t [th' [p [E [Hm [Hp Hhex]]]]]].
      injection E as <-. rewrite Ht in Hm. injection Hm as <-.
      exists p. split; [assumption|]. now apply String.eqb_eq.
  - split; [discriminate|]. intros [t [th [p [E _]]]]. discriminate.
Qed.

(** X9: once a [Parent] was dropped on the [Repository] and the child is
    shown with the parents of the request as a [Merge] target, the
    removed parent is not marked. *)
Theorem parent_pronoun_after_removal
  (s s' : Store) (from to z c target th header : ref)
  (addressed : RevId.t) (newParents : list CommitId.t) :
  operand_at s from = Parent z c ->
  operand_at s to = Repository ->
  doDrop s from to = [mutate (move_source addressed newParents)] ->
  operand_at s' target = Merge th ->
  parent_ids s' th = newParents ->
  commit_hex s' header = commit_hex s z ->
  parent_pronoun s' false (Some target) header = false.
Proof.
  intros Hfrom Hto Hdrop Htarget Hps Hhex.
  unfold doDrop in Hdrop. rewrite Hfrom, Hto in Hdrop.
  injection Hdrop as _ <-.
  unfold parent_pronoun. rewrite Htarget, Hps, Hhex. cbn [orb].
  apply negb_false_iff, Z.eqb_eq. unfold findIndex.
  apply findIndex_from_none; [lia|].
  intros p Hp. apply filter_In in Hp. destruct Hp as [_ Hp].
  now apply negb_true_iff in Hp.
Qed.

Lemma parent_pronoun_after_removal_witness :
  parent_pronoun Rendered.removed false (Some 5) 100 = false.
Proof.
  apply (parent_pronoun_after_removal
           Sample.store Rendered.removed 6 0 100 104 5 104 100
           (id Sample.store 104) [Sample.cmt "c2"; Sample.cmt "c3"]);
    reflexivity.
Defined.

(** X10: once a [Revision] was dropped on a [Merge] and the merge is
    shown with the parents of the request as the target, the added
    parent is marked. *)
Theorem parent_pronoun_after_addition
  (s s' : Store) (from to fh th target th' header : ref) (context : bool)
  (addressed : RevId.t) (newParents : list CommitId.t) :
  operand_at s from = Revision fh ->
  operand_at s to = Merge th ->
  doDrop s from to = [mutate (move_source addressed newParents)] ->
  operand_at s' target = Merge th' ->
  parent_ids s' th' = newParents ->
  commit_hex s' header = commit_hex s fh ->
  parent_pronoun s' context (Some target) header = true.
Proof.
  intros Hfrom Hto Hdrop Htarget Hps Hhex.
  unfold doDrop in Hdrop. rewrite Hfrom, Hto in Hdrop.
  injection Hdrop as _ <-.
  unfold parent_pronoun. rewrite Htarget, Hps, Hhex.
  apply orb_true_iff. right.
  apply negb_true_iff, findIndex_found.
  exists (commit s fh). split.
  - apply in_or_app. right. now left.
  - apply String.eqb_refl.
Qed.

Lemma parent_pronoun_after_addition_witness :
  parent_pronoun Rendered.added false (Some 5) 105 = true.
Proof.
  apply (parent_pronoun_after_addition
           Sample.store Rendered.added 16 5 105 104 5 104 105 false
           (id Sample.store 104)
           [Sample.cmt "c1"; Sample.cmt "c2"; Sample.cmt "c3"; Sample.cmt "c5"]);
    reflexivity.
Defined.

(* ------------------------------------------------------------------ *)
(** ** The earlier revision of the mutator *)

(** X11: in the earlier revision [doDrop] never returns early: a call
    issues at most one request, and a call that issues a request goes on
    to log the error as well. *)
Theorem Earlier_doDrop_logs_error_after_request (s : Store) (from to : ref) :
  length (Earlier.requests (Earlier.doDrop s from to)) <= 1
  /\ last (Earlier.doDrop s from to) (Earlier.console_log "")
     = Earlier.console_log "error: unknown validated mutation"
  /\ forall r,
      In (Earlier.mutate r) (Earlier.doDrop s from to) ->
      Earlier.doDrop s from to
      = [Earlier.mutate r;
         Earlier.console_log "error: unknown validated mutation"].
Proof.
  unfold Earlier.doDrop.
  destruct (operand_at s from) as [|fh|fh|fh fc|fh fp|fh fn],
           (operand_at s to) as [|th|th|th tc|th tp|th tn];
    cbn [app Earlier.requests length last];
    (split; [lia|]); (split; [reflexivity|]);
    intros r Hin; cbn [In] in Hin;
    repeat match type of Hin with
           | _ \/ _ => destruct Hin as [Hin|Hin]
           | False => contradiction
           end;
    try discriminate Hin; injection Hin as <-; reflexivity.
Qed.

Lemma Earlier_doDrop_logs_error_after_request_witness :
  Earlier.doDrop Sample.store 1 0
  = [Earlier.mutate (Earlier.abandon_revisions [Sample.cmt "c1"]);
     Earlier.console_log "error: unknown validated mutation"].
Proof.
  apply (proj2 (proj2 (Earlier_doDrop_logs_error_after_request
                         Sample.store 1 0))).
  simpl. auto.
Defined.

(** X12: in the earlier revision the table and the dispatcher are not
    in step: of the pairs that [canDrop] classifies yes, [doDrop] issues
    a request for a [Revision] dropped on the [Repository] and for a
    [Change], and none for the others. *)
Theorem Earlier_yes_pairs_without_request (s : Store) (from to : ref) :
  Earlier.type (Earlier.canDrop s from to) = "yes" ->
  Earlier.requests (Earlier.doDrop s from to) = []
  <-> match operand_at s from with
      | Revision _ => operand_at s to <> Repository
      | Change _ _ => False
      | _ => True
      end.
Proof.
  unfold Earlier.canDrop, Earlier.canDrag, Earlier.doDrop.
  destruct (operand_at s from) as [|fh|fh|fh fc|fh fp|fh fn],
           (operand_at s to) as [|th|th|th tc|th tp|th tn];
    split_gate;
    cbn [Earlier.type String.eqb Ascii.eqb Bool.eqb negb andb];
    try discriminate;
    destruct (from =? to);
    cbn [Earlier.type app Earlier.requests]; try discriminate;
    intros Hyes; split; intros H; try reflexivity; try exact I;
    try discriminate; try congruence; try contradiction.
Qed.

Lemma Earlier_yes_pairs_without_request_witness :
  Earlier.requests (Earlier.doDrop Sample.store 1 3) = []
  <-> operand_at Sample.store 3 <> Repository.
Proof.
  apply (Earlier_yes_pairs_without_request Sample.store 1 3). reflexivity.
Defined.

(** X13: the later revision extends the earlier one: [canDrag] gives the
    same classification in both, and a pair that the earlier [canDrop]
    classifies yes, or maybe, is classified the same by the later. *)
Theorem canDrop_extends_Earlier (s : Store) (from to : ref) :
  Earlier.type (Earlier.canDrag s from) = type (canDrag s from)
  /\ (Earlier.type (Earlier.canDrop s from to) = "yes" ->
      type (canDrop s from to) = "yes")
  /\ (Earlier.type (Earlier.canDrop s from to) = "maybe" ->
      type (canDrop s from to) = "maybe").
Proof.
  unfold Earlier.canDrop, canDrop, Earlier.canDrag, canDrag.
  destruct (operand_at s from) as [|fh|fh|fh fc|fh fp|fh fn],
           (operand_at s to) as [|th|th|th tc|th tp|th tn];
    cbn [is_Revision is_Merge andb negb];
    split_gate;
    cbn [type Earlier.type String.eqb Ascii.eqb Bool.eqb negb andb];
    try rewrite andb_false_r;
    try (destruct (from =? to));
    try (destruct (tc =? fh));
    try (destruct (change_hex s th =? change_hex s fh)%string);
    try (destruct (RefName.branch_name fn =? RefName.branch_name tn)%string);
    try (destruct (parent_ids s fh) as [|p [|q ps]]);
    cbn [type Earlier.type];
    repeat split; intros; try discriminate; try reflexivity.
Qed.

Lemma canDrop_extends_Earlier_witness :
  type (canDrop Sample.store 1 3) = "yes"
  /\ type (canDrop Sample.store 1 7) = "maybe".
Proof.
  split.
  - apply (proj1 (proj2 (canDrop_extends_Earlier Sample.store 1 3))).
    reflexivity.
  - apply (proj2 (proj2 (canDrop_extends_Earlier Sample.store 1 7))).
    reflexivity.
Defined.

(** X14: the two revisions of [canDrop] classify a pair differently in
    exactly three cells: an immutable revision dropped on a merge of
    another change identity, a mutable change restored when its header
    does not have exactly one parent, and a local branch dropped on
    another branch operand of the same name. *)
Theorem canDrop_differs_from_Earlier (s : Store) (from to : ref) :
  Earlier.type (Earlier.canDrop s from to) <> type (canDrop s from to)
  <-> match operand_at s from, operand_at s to with
      | Revision fh, Merge th =>
          is_immutable s fh = true /\ change_hex s th <> change_hex s fh
      | Change fh fp, Repository =>
          is_immutable s fh = false /\ length (parent_ids s fh) <> 1
      | Branch fh fn, Branch th tn =>
          RefName.type fn <> RefName.RemoteBranch
          /\ from <> to
          /\ RefName.branch_name fn = RefName.branch_name tn
      | _, _ => False
      end.
Proof.
  unfold Earlier.canDrop, canDrop, Earlier.canDrag, canDrag.
  destruct (operand_at s from) as [|fh|fh|fh fc|fh fp|fh fn] eqn:Hf,
           (operand_at s to) as [|th|th|th tc|th tp|th tn] eqn:Ht;
    cbn [is_Revision is_Merge andb negb];
    split_gate;
    cbn [type Earlier.type String.eqb Ascii.eqb Bool.eqb negb andb];
    try rewrite andb_false_r;
    try (destruct (from =? to) eqn:?);
    try (destruct (tc =? fh) eqn:?);
    try (destruct (change_hex s th =? change_hex s fh)%string eqn:?);
    try (destruct (RefName.branch_name fn =? RefName.branch_name tn)%string eqn:?);
    try (destruct (parent_ids s fh) as [|p [|q ps]] eqn:?);
    cbn [type Earlier.type length] in *; nat_facts;
    try (destruct (RefName.type fn); cbn in *);
    intuition (try discriminate; try congruence; try lia).
Qed.

(* ------------------------------------------------------------------ *)
(** ** Self-drop checks *)

(** X15: the three self-drop checks of [canDrop].  An operand dropped on
    the same object is classified no; so is a [Revision] dropped on a
    [Merge], and a [Change] dropped on a [Revision], of the same change
    hex, whatever objects hold them. *)
Theorem canDrop_self_drop_checks (s : Store) :
  (forall x, canDrop s x x = no)
  /\ (forall from to fh th,
        operand_at s from = Revision fh ->
        operand_at s to = Merge th ->
        change_hex s th = change_hex s fh ->
        canDrop s from to = no)
  /\ (forall from to fh path th,
        operand_at s from = Change fh path ->
        operand_at s to = Revision th ->
        change_hex s th = change_hex s fh ->
        canDrop s from to = no).
Proof.
  split; [apply canDrop_same_object|].
  split; intros from to fh; intros; unfold canDrop, canDrag;
    repeat match goal with H : operand_at _ _ = _ |- _ => rewrite H; clear H end;
    match goal with H : change_hex _ _ = _ |- _ => rewrite H end;
    rewrite String.eqb_refl;
    cbn [is_Revision is_Merge andb negb];
    try rewrite andb_false_r;
    destruct (is_immutable s fh); cbn; destruct (from =? to); reflexivity.
Qed.

Lemma canDrop_self_drop_checks_witness :
  canDrop Sample.store 1 1 = no
  /\ canDrop Rendered.removed 18 5 = no
  /\ canDrop Rendered.removed 9 18 = no.
Proof.
  destruct (canDrop_self_drop_checks Sample.store) as [Hsame _].
  destruct (canDrop_self_drop_checks Rendered.removed) as [_ [Hmerge Hchange]].
  split; [apply Hsame|]. split.
  - apply (Hmerge 18 5 104 104); reflexivity.
  - apply (Hchange 9 18 104 Sample.a_txt 104); reflexivity.
Defined.
